(** * quiz-generator.py: a shallow embedding of the quota, the question
    generation, the countdown and the scoring of [conduct_quiz].

    Modelling conventions.
    - [st.session_state] is the record [session]; [st.error] appends the
      kind of the displayed message to [errors] (the text of the message is
      not relevant to any property, its kind is).
    - [datetime.now().strftime("%Y-%m-%d")] is an input string [today].
    - The outcome of [requests.post] is an input of type [http_response];
      the JSON value a response decodes to is the inductive [json].
    - [json.loads] on a string is a parameter [json_loads] ([None] is a
      [json.JSONDecodeError]).
    - Clock readings are integer milliseconds; [time.sleep(d)] advances the
      clock by [d] seconds plus a non-negative extra delay chosen by the
      environment.
    - The score is a Python number, [py_num]: [score = 0] makes it an
      int, [score += 2] keeps its type, [score -= 0.66] makes it a float.
      Python floats are IEEE 754 binary64 numbers with rounding to nearest,
      ties to even; so are Rocq's primitive floats, which model them. *)

From Stdlib Require Import String Ascii ZArith List Bool Lia Sorted.
From Stdlib Require Import Floats QArith.
Import ListNotations.
Open Scope Z_scope.
Set Warnings "-register-all".
Set Warnings "-inexact-float".

(* ------------------------------------------------------------------ *)
(** ** Session state and the daily reset (lines 15-26) *)

(** Kinds of the messages shown with [st.error]. *)
Inductive err_msg :=
| ErrDailyLimit            (* line 32 *)
| ErrStatus (code : Z)     (* line 43 *)
| ErrEmptyResponse         (* line 48 *)
| ErrUnexpectedFormat      (* line 56 *)
| ErrDecode                (* line 65 *)
| ErrNoQuestions           (* line 68 *)
| ErrRequest.              (* line 71 *)

Record session := mk_session {
  question_count : Z;
  last_reset : string;
  errors : list err_msg
}.

(** Lines 16-19: the state a new session starts from. *)
Definition init_session (today : string) : session :=
  {| question_count := 0; last_reset := today; errors := [] |}.

Definition st_error (m : err_msg) (s : session) : session :=
  {| question_count := question_count s; last_reset := last_reset s;
     errors := errors s ++ [m] |}.

(** [reset_question_limit], lines 21-26. *)
Definition reset_question_limit (current_date : string) (s : session) : session :=
  if negb (String.eqb (last_reset s) current_date) then
    {| question_count := 0; last_reset := current_date; errors := errors s |}
  else s.

(* ------------------------------------------------------------------ *)
(** ** JSON values and Python truthiness *)

Inductive json :=
| JNull
| JBool (b : bool)
| JNum (z : Z)
| JStr (s : string)
| JArr (l : list json)
| JObj (kv : list (string * json)).

(** [bool(v)] in Python. *)
Definition truthy (v : json) : bool :=
  match v with
  | JNull => false
  | JBool b => b
  | JNum z => negb (z =? 0)
  | JStr s => negb (String.eqb s EmptyString)
  | JArr l => match l with [] => false | _ => true end
  | JObj kv => match kv with [] => false | _ => true end
  end.

(** [d.get(k, default)] on a dict decoded from JSON: with duplicate keys
    the last one wins. *)
Definition dict_get (kv : list (string * json)) (k : string) (default : json) : json :=
  match find (fun p => String.eqb (fst p) k) (rev kv) with
  | Some (_, v) => v
  | None => default
  end.

(** Exceptions that escape [generate_questions]. *)
Inductive py_exn :=
| AttributeError   (* [.get] called on a non-dict element *)
| TypeError.       (* [json.loads] called on a non-string value *)

(** Outcome of a Python call: a returned value or a raised exception. *)
Inductive py_result :=
| Returned (v : json)
| Raised (e : py_exn).

(** What [requests.post(...)] and [response.json()] produce.
    [Response code None] is a body that is not JSON: [response.json()]
    then raises [requests.exceptions.JSONDecodeError], a subclass of
    [RequestException] (requests >= 2.27). *)
Inductive http_response :=
| RequestFailed                          (* [requests.post] raised *)
| Response (status_code : Z) (body : option json).

(* ------------------------------------------------------------------ *)
(** ** [generate_questions], lines 28-72 *)

Section Generate.

Variable json_loads : string -> option json.

(** Lines 51-57: [inl e] raises [e]; [inr None] is the
    "unexpected format" branch; [inr (Some t)] is [generated_text]. *)
Definition extract_generated_text (response_json : json)
  : py_exn + option json :=
  match response_json with
  | JArr (x :: _) =>
      match x with
      | JObj kv => inr (Some (dict_get kv "generated_text" (JStr "")))
      | _ => inl AttributeError
      end
  | JObj kv => inr (Some (dict_get kv "generated_text" (JStr "")))
  | _ => inr None
  end.

Definition empty_list : py_result := Returned (JArr []).

Definition generate_questions (today topic : string) (num_questions : Z)
    (post : http_response) (s0 : session) : session * py_result :=
  let s := reset_question_limit today s0 in
  if 300 <? question_count s + num_questions then
    (st_error ErrDailyLimit s, empty_list)
  else
    match post with
    | RequestFailed => (st_error ErrRequest s, empty_list)
    | Response code body =>
        if negb (code =? 200) then (st_error (ErrStatus code) s, empty_list)
        else
          match body with
          | None => (st_error ErrRequest s, empty_list)
          | Some response_json =>
              if negb (truthy response_json) then
                (st_error ErrEmptyResponse s, empty_list)
              else
                match extract_generated_text response_json with
                | inl e => (s, Raised e)
                | inr None => (st_error ErrUnexpectedFormat s, empty_list)
                | inr (Some generated_text) =>
                    if truthy generated_text then
                      match generated_text with
                      | JStr txt =>
                          match json_loads txt with
                          | Some questions =>
                              ({| question_count := question_count s + num_questions;
                                  last_reset := last_reset s;
                                  errors := errors s |}, Returned questions)
                          | None => (st_error ErrDecode s, empty_list)
                          end
                      | _ => (s, Raised TypeError)
                      end
                    else (st_error ErrNoQuestions s, empty_list)
                end
          end
    end.

End Generate.

(* ------------------------------------------------------------------ *)
(** ** Operations on the session counter *)

(** Every step of the script that touches [question_count]: the reset
    that [conduct_quiz] performs at line 85, and a call of
    [generate_questions] at line 89 with whatever the network returns. *)
Inductive session_op :=
| OpReset (today : string)
| OpGenerate (today topic : string) (num_questions : Z) (post : http_response).

Definition apply_op (json_loads : string -> option json) (s : session)
    (o : session_op) : session :=
  match o with
  | OpReset today => reset_question_limit today s
  | OpGenerate today topic n post =>
      fst (generate_questions json_loads today topic n post s)
  end.

Definition run_ops (json_loads : string -> option json) (s : session)
    (ops : list session_op) : session :=
  fold_left (apply_op json_loads) ops s.

(* ------------------------------------------------------------------ *)
(** ** Scoring, lines 132-153 *)

Record question := mk_question {
  q_question : string;
  q_options : list string;
  q_answer : string
}.

(** Line 109: the labels of the radio buttons, ["A. " ++ option], ... *)
Definition radio_labels (q : question) : list string :=
  map (fun p => String (ascii_of_nat (65 + fst p)) (". " ++ snd p))
      (combine (seq 0 (length (q_options q))) (q_options q)).

(** An attempt pairs each question with [responses[f"q{index}"]]: the
    selected label, or [None] for [index=None] left untouched. *)
Definition attempt := list (question * option string).

(** What lines 140-151 display for one question. *)
Inductive verdict := Correct | Wrong | Unanswered.

Definition classify (qa : question * option string) : verdict :=
  let (q, answer) := qa in
  match answer with
  | Some (String selected_option _) =>
      if String.eqb (String selected_option EmptyString) (q_answer q)
      then Correct else Wrong
  | _ => Unanswered   (* [None] and [""] are both falsy *)
  end.

(** The numbers [score] holds: a Python int or a Python float. *)
Inductive py_num :=
| PyInt (z : Z)
| PyFloat (f : float).

(** [float(z)]: the double nearest to [z], ties to even (an int beyond
    the range of doubles raises OverflowError in Python; the scores stay
    far below it). *)
Definition float_of_int (z : Z) : float :=
  SF2Prim (SpecFloat.binary_normalize FloatOps.prec FloatOps.emax z 0 false).

(** [x + k] for an int [k]: int addition, or a float addition after
    converting [k]. *)
Definition py_add_int (x : py_num) (k : Z) : py_num :=
  match x with
  | PyInt z => PyInt (z + k)
  | PyFloat f => PyFloat (f + float_of_int k)%float
  end.

(** [x - y] for a float [y]: the result is a float. *)
Definition py_sub_float (x : py_num) (y : float) : py_num :=
  match x with
  | PyInt z => PyFloat (float_of_int z - y)%float
  | PyFloat f => PyFloat (f - y)%float
  end.

(** One iteration of the loop at lines 136-151. *)
Definition score_step (score : py_num) (qa : question * option string) : py_num :=
  let (q, answer) := qa in
  match answer with
  | Some (String selected_option _) =>
      if String.eqb (String selected_option EmptyString) (q_answer q)
      then py_add_int score 2 else py_sub_float score 0.66%float
  | _ => score
  end.

(** Lines 133-151: [score = 0], then the loop over the questions. *)
Definition final_score (a : attempt) : py_num := fold_left score_step a (PyInt 0).

(** Line 153: the score and the maximum it is shown against. *)
Definition score_line (num_questions : Z) (a : attempt) : py_num * Z :=
  (final_score a, num_questions * 2).

(** The exact rational number a Python number denotes ([None] for the
    infinities and NaN). *)
Definition py_value (x : py_num) : option Q :=
  match x with
  | PyInt z => Some (inject_Z z)
  | PyFloat f =>
      match Prim2SF f with
      | S754_zero _ => Some 0%Q
      | S754_finite sgn m e =>
          Some (inject_Z (if sgn then Zneg m else Zpos m) * Qpower (inject_Z 2) e)%Q
      | _ => None
      end
  end.

(** The scoring rule as the specification words it, in exact arithmetic:
    +2 when the first character of the chosen label is the correct letter,
    -0.66 when an option was chosen with another letter, 0 when none was
    chosen. *)
Definition points_spec (qa : question * option string) : Q :=
  match snd qa with
  | None => 0
  | Some (String c _) =>
      if String.eqb (String c EmptyString) (q_answer (fst qa)) then 2 else - (66 # 100)
  | Some EmptyString => - (66 # 100)
  end.

Definition score_spec (a : attempt) : Q := fold_right Qplus 0%Q (map points_spec a).

(** The same rule as a verdict per question, and the Python operation
    that lines 142 and 146 perform for a verdict. *)
Definition verdict_spec (qa : question * option string) : verdict :=
  match snd qa with
  | None => Unanswered
  | Some (String c _) =>
      if String.eqb (String c EmptyString) (q_answer (fst qa)) then Correct else Wrong
  | Some EmptyString => Wrong
  end.

Definition py_points (score : py_num) (v : verdict) : py_num :=
  match v with
  | Correct => py_add_int score 2
  | Wrong => py_sub_float score 0.66%float
  | Unanswered => score
  end.

(** Left to right from the int [0], one operation per question. *)
Definition score_python_spec (a : attempt) : py_num :=
  fold_left (fun score qa => py_points score (verdict_spec qa)) a (PyInt 0).

(** The selections an attempt can hold: labels offered by the radio. *)
Definition well_formed_attempt (a : attempt) : bool :=
  forallb (fun qa => match snd qa with
                     | None => true
                     | Some label => existsb (String.eqb label) (radio_labels (fst qa))
                     end) a.

Definition is_wrong (qa : question * option string) : bool :=
  match classify qa with Wrong => true | _ => false end.

Definition is_correct (qa : question * option string) : bool :=
  match classify qa with Correct => true | _ => false end.

(* ------------------------------------------------------------------ *)
(** ** The countdown, lines 94-130 *)

Record quiz_state := mk_quiz_state {
  clock : Z;          (* what [time.time()] reads, in milliseconds *)
  submitted : bool    (* [st.session_state["submitted"]] *)
}.

Section Timer.

(** Extra milliseconds the [k]-th [time.sleep] takes beyond its argument. *)
Variable extra_delay : nat -> nat.

Definition sleep (k : nat) (secs : Z) (q : quiz_state) : quiz_state :=
  {| clock := clock q + secs * 1000 + Z.of_nat (extra_delay k);
     submitted := submitted q |}.

Definition set_submitted (q : quiz_state) : quiz_state :=
  {| clock := clock q; submitted := true |}.

(** The [while] loop of lines 118-125; [k] numbers the sleeps and the
    result carries the next number.  [None] means the fuel ran out. *)
Fixpoint countdown (fuel k : nat) (end_time : Z) (submit_clicked : bool)
    (q : quiz_state) : option (nat * quiz_state) :=
  match fuel with
  | O => None
  | S fuel' =>
      if (clock q <? end_time) && negb (submitted q) then
        let q1 := sleep k 1 q in
        if submit_clicked then Some (S k, set_submitted q1)
        else countdown fuel' (S k) end_time submit_clicked q1
      else Some (k, q)
  end.

(** Lines 94-130, from [start_time = time.time()]. *)
Definition quiz_timer (fuel : nat) (num_questions start_time : Z)
    (submit_clicked : bool) : option quiz_state :=
  let total_time := num_questions * 15 in
  let end_time := start_time + total_time * 1000 in
  let q0 := {| clock := start_time; submitted := false |} in
  if negb (submitted q0) then
    match countdown fuel 0 end_time submit_clicked q0 with
    | None => None
    | Some (k, q) =>
        if (end_time <=? clock q) && negb (submitted q) then
          Some (set_submitted (sleep k 2 q))
        else Some q
    end
  else Some q0.

(** Lines 119-121: the time shown in the placeholder.  [int(...)]
    truncates toward zero ([Z.quot]); [divmod] floors ([Z.div], [Z.modulo]). *)
Definition remaining_display (end_time now : Z) : Z * Z :=
  let remaining_time := Z.quot (end_time - now) 1000 in
  (remaining_time / 60, remaining_time mod 60).

(** The loop of lines 118-125 again, now also returning the
    [(minutes, seconds)] pairs written to the placeholder, in order. *)
Fixpoint countdown_shown (fuel k : nat) (end_time : Z) (submit_clicked : bool)
    (q : quiz_state) : option (nat * quiz_state * list (Z * Z)) :=
  match fuel with
  | O => None
  | S fuel' =>
      if (clock q <? end_time) && negb (submitted q) then
        let shown := remaining_display end_time (clock q) in
        let q1 := sleep k 1 q in
        if submit_clicked then Some (S k, set_submitted q1, [shown])
        else
          match countdown_shown fuel' (S k) end_time submit_clicked q1 with
          | Some (k', q', l) => Some (k', q', shown :: l)
          | None => None
          end
      else Some (k, q, [])
  end.

End Timer.

(* ------------------------------------------------------------------ *)
(** ** The start of [conduct_quiz], lines 81-92 *)

(** What happens after line 88. *)
Inductive quiz_start :=
| NotStarted                 (* the [if] at line 88 is false *)
| StartAborted               (* lines 90-92: [st.warning] and [return] *)
| StartRaised (e : py_exn)   (* the exception leaves [conduct_quiz] *)
| Started (questions : json).

(** Lines 85-92.  [player_name and topic and st.button(...)]: the button
    is only drawn (and can only be clicked) when both strings are
    non-empty; [start_clicked] is what it returns. *)
Definition start_quiz (json_loads : string -> option json)
    (today player_name topic : string) (num_questions : Z)
    (start_clicked : bool) (post : http_response) (s0 : session)
    : session * quiz_start :=
  let s := reset_question_limit today s0 in
  if negb (String.eqb player_name EmptyString)
     && negb (String.eqb topic EmptyString) && start_clicked then
    let (s', r) := generate_questions json_loads today topic num_questions post s in
    match r with
    | Raised e => (s', StartRaised e)
    | Returned questions =>
        if negb (truthy questions) then (s', StartAborted)
        else (s', Started questions)
    end
  else (s, NotStarted).

(** Operations that all happen on day [d], each requesting a
    non-negative number of questions (the slider of line 83 gives 10-50). *)
Definition ops_on_day (d : string) (ops : list session_op) : bool :=
  forallb (fun o => match o with
                    | OpReset t => String.eqb t d
                    | OpGenerate t _ n _ => String.eqb t d && (0 <=? n)
                    end) ops.

(** A provider response carrying [txt] as [generated_text]. *)
Definition text_response (txt : string) : http_response :=
  Response 200 (Some (JObj [("generated_text"%string, JStr txt)])).

(** A provider response in the list form [[{"generated_text": txt}]]. *)
Definition list_response (txt : string) : http_response :=
  Response 200 (Some (JArr [JObj [("generated_text"%string, JStr txt)]])).

(* ------------------------------------------------------------------ *)
(** * Properties *)

Ltac case_matches :=
  repeat match goal with
  | |- context [if ?c then _ else _] => destruct c eqn:?
  | |- context [match ?x with _ => _ end] => destruct x eqn:?
  end.

Lemma st_error_errors_neq (m : err_msg) (s : session) :
  errors (st_error m s) <> errors s.
Proof.
  simpl. intro H. apply (f_equal (@length err_msg)) in H.
  rewrite length_app in H. simpl in H. lia.
Qed.

Lemma reset_count_le (d : string) (s : session) :
  question_count s <= 300 -> question_count (reset_question_limit d s) <= 300.
Proof.
  unfold reset_question_limit. destruct (negb _); simpl; lia.
Qed.

Lemma generate_count_le (json_loads : string -> option json) today topic n post s :
  question_count s <= 300 ->
  question_count (fst (generate_questions json_loads today topic n post s)) <= 300.
Proof.
  intro H. pose proof (reset_count_le today s H) as Hr.
  unfold generate_questions.
  set (sr := reset_question_limit today s) in *.
  destruct (300 <? question_count sr + n) eqn:Hq; [simpl; lia|].
  apply Z.ltb_ge in Hq.
  case_matches; simpl; lia.
Qed.

Lemma run_ops_count_le json_loads ops :
  forall s, question_count s <= 300 ->
  question_count (run_ops json_loads s ops) <= 300.
Proof.
  induction ops as [|o ops IH]; intros s H; simpl; [exact H|].
  apply IH. destruct o; simpl.
  - now apply reset_count_le.
  - now apply generate_count_le.
Qed.

(** C2: from the state a session starts in, whatever sequence of daily
    resets and calls of [generate_questions] follows (any dates, any
    requested counts, any network outcome, any decoder), the counter
    [question_count] never exceeds 300. *)
Theorem question_count_le_300 (json_loads : string -> option json)
    (first_day : string) (ops : list session_op) :
  question_count (run_ops json_loads (init_session first_day) ops) <= 300.
Proof.
  apply run_ops_count_le. simpl. lia.
Qed.

(** C4: when the stored date differs from the current date,
    [reset_question_limit] sets the counter to 0 and the stored date to the
    current one; when they are equal it leaves the session unchanged. *)
Theorem reset_question_limit_spec (current_date : string) (s : session) :
  (last_reset s <> current_date ->
     question_count (reset_question_limit current_date s) = 0 /\
     last_reset (reset_question_limit current_date s) = current_date) /\
  (last_reset s = current_date -> reset_question_limit current_date s = s).
Proof.
  unfold reset_question_limit. split; intro H.
  - apply String.eqb_neq in H. rewrite H. simpl. auto.
  - apply String.eqb_eq in H. rewrite H. reflexivity.
Qed.

(** C5: a second reset with the same current date changes nothing. *)
Theorem reset_question_limit_idempotent (current_date : string) (s : session) :
  reset_question_limit current_date (reset_question_limit current_date s)
  = reset_question_limit current_date s.
Proof.
  unfold reset_question_limit.
  destruct (negb (String.eqb (last_reset s) current_date)) eqn:E; simpl.
  - rewrite String.eqb_refl. reflexivity.
  - rewrite E. reflexivity.
Qed.

(** C3 (failing input): a response with status 200 whose JSON body is the
    list [[1]] (a list whose first element is not a dict) makes line 52
    call [.get] on an int: [generate_questions] raises [AttributeError],
    displays no error and returns nothing. *)
Theorem generate_questions_list_of_non_dict_raises
    (json_loads : string -> option json) (today topic : string) :
  generate_questions json_loads today topic 10
    (Response 200 (Some (JArr [JNum 1]))) (init_session today)
  = (init_session today, Raised AttributeError).
Proof.
  unfold generate_questions, reset_question_limit. simpl.
  rewrite String.eqb_refl. reflexivity.
Qed.

(** A second input of the same kind: a dict whose [generated_text] is a
    number reaches [json.loads(5)], which raises [TypeError]. *)
Lemma generate_questions_non_string_text_raises
    (json_loads : string -> option json) (today topic : string) :
  generate_questions json_loads today topic 10
    (Response 200 (Some (JObj [("generated_text"%string, JNum 5)]))) (init_session today)
  = (init_session today, Raised TypeError).
Proof.
  unfold generate_questions, reset_question_limit. simpl.
  rewrite String.eqb_refl. reflexivity.
Qed.

(** C8: on a successful call, one that returns a payload and displays no
    error, the counter becomes the counter after the daily reset plus the
    requested [num_questions], whatever the payload [qs] is, in particular
    however many questions it holds. *)
Theorem generate_questions_charges_requested
    (json_loads : string -> option json) today topic num_questions post s s' qs :
  generate_questions json_loads today topic num_questions post s = (s', Returned qs) ->
  errors s' = errors (reset_question_limit today s) ->
  question_count s' = question_count (reset_question_limit today s) + num_questions.
Proof.
  unfold generate_questions. set (sr := reset_question_limit today s).
  destruct (300 <? question_count sr + num_questions).
  { intros H. injection H as <- _. intro He. exfalso.
    exact (st_error_errors_neq _ _ He). }
  case_matches; intro H; try discriminate H; injection H as <- _; intro He;
    try (exfalso; exact (st_error_errors_neq _ _ He)); reflexivity.
Qed.

(** C9: every path of [generate_questions] that displays an error returns
    the empty list and leaves the counter as the daily reset left it, and
    the counter changes only when a payload decoded by [json.loads] is
    returned. *)
Theorem generate_questions_atomic_on_failure
    (json_loads : string -> option json) today topic num_questions post s :
  let sr := reset_question_limit today s in
  let r := generate_questions json_loads today topic num_questions post s in
  (errors (fst r) <> errors sr ->
     question_count (fst r) = question_count sr /\ snd r = empty_list) /\
  (question_count (fst r) <> question_count sr ->
     exists txt qs, json_loads txt = Some qs /\ snd r = Returned qs).
Proof.
  intros sr r. subst r. unfold generate_questions. fold sr.
  destruct (300 <? question_count sr + num_questions);
    [simpl; split; [auto | intro H; contradiction H; reflexivity]|].
  case_matches; simpl; split; intro H;
    try (split; reflexivity);
    try (contradiction H; reflexivity);
    eauto.
Qed.

(** ** IEEE doubles: subtracting 0.66 from a negative float *)

Lemma digits2_log2 (p : positive) :
  Zpos (SpecFloat.digits2_pos p) = Z.log2 (Zpos p) + 1.
Proof.
  induction p as [p IH|p IH|]; [| |reflexivity]; cbn [SpecFloat.digits2_pos];
    rewrite Pos2Z.inj_succ, IH.
  - change (Zpos p~1) with (2 * Zpos p + 1). rewrite Z.log2_succ_double by lia. lia.
  - change (Zpos p~0) with (2 * Zpos p). rewrite Z.log2_double by lia. lia.
Qed.

Lemma shr_1_m (mrs : SpecFloat.shr_record) :
  0 <= SpecFloat.shr_m mrs ->
  SpecFloat.shr_m (SpecFloat.shr_1 mrs) = Z.div2 (SpecFloat.shr_m mrs).
Proof.
  destruct mrs as [m r s]; cbn [SpecFloat.shr_m]; intro H.
  destruct m as [|[p|p|]|p]; try reflexivity. lia.
Qed.

(** [p] steps of [shr_1] shift the mantissa right by [p] bits. *)
Lemma iter_shr (p : positive) :
  forall mrs, 0 <= SpecFloat.shr_m mrs ->
  SpecFloat.shr_m (SpecFloat.iter_pos SpecFloat.shr_1 p mrs)
  = Z.shiftr (SpecFloat.shr_m mrs) (Zpos p).
Proof.
  induction p as [p IH|p IH|]; intros mrs H; cbn [SpecFloat.iter_pos].
  - assert (H1 : 0 <= SpecFloat.shr_m (SpecFloat.shr_1 mrs))
      by (rewrite shr_1_m by exact H; rewrite Z.div2_spec; apply Z.shiftr_nonneg; exact H).
    assert (H2 : 0 <= SpecFloat.shr_m (SpecFloat.iter_pos SpecFloat.shr_1 p (SpecFloat.shr_1 mrs)))
      by (rewrite IH by exact H1; apply Z.shiftr_nonneg; exact H1).
    rewrite IH by exact H2. rewrite IH by exact H1.
    rewrite shr_1_m, Z.div2_spec by exact H.
    rewrite !Z.shiftr_shiftr by lia. f_equal. lia.
  - assert (H2 : 0 <= SpecFloat.shr_m (SpecFloat.iter_pos SpecFloat.shr_1 p mrs))
      by (rewrite IH by exact H; apply Z.shiftr_nonneg; exact H).
    rewrite IH by exact H2. rewrite IH by exact H.
    rewrite Z.shiftr_shiftr by lia. f_equal. lia.
  - rewrite shr_1_m, Z.div2_spec by exact H. reflexivity.
Qed.

Lemma fexp_64 (x : Z) :
  SpecFloat.fexp FloatOps.prec FloatOps.emax x = Z.max (x - 53) (-1074).
Proof. reflexivity. Qed.

Lemma shiftr_pos (m n : Z) :
  0 < m -> 0 <= n <= Z.log2 m ->
  0 < Z.shiftr m n /\ Z.log2 (Z.shiftr m n) = Z.log2 m - n.
Proof.
  intros Hm Hn. rewrite Z.log2_shiftr by lia. split; [|lia].
  rewrite Z.shiftr_div_pow2 by lia.
  destruct (Z.log2_spec m Hm) as [Hl _].
  apply Z.div_str_pos. split; [apply Z.pow_pos_nonneg; lia|].
  eapply Z.le_trans; [apply Z.pow_le_mono_r; [lia|exact (proj2 Hn)]|exact Hl].
Qed.

(** Cutting a positive mantissa to the precision keeps it positive and
    keeps the magnitude [log2 m + 1 + e], as long as that magnitude is
    above the subnormal limit. *)
Lemma shr_fexp_pos (m e : Z) (l : SpecFloat.location) :
  0 < m -> -1074 < Z.log2 m + 1 + e ->
  let r := SpecFloat.shr_fexp FloatOps.prec FloatOps.emax m e l in
  0 < SpecFloat.shr_m (fst r) /\
  Z.log2 (SpecFloat.shr_m (fst r)) + 1 + snd r = Z.log2 m + 1 + e.
Proof.
  intros Hm He. unfold SpecFloat.shr_fexp, SpecFloat.shr.
  assert (Hd : SpecFloat.Zdigits2 m = Z.log2 m + 1)
    by (destruct m as [|p|p]; try lia; apply digits2_log2).
  rewrite Hd, fexp_64.
  assert (Hr : SpecFloat.shr_m (SpecFloat.shr_record_of_loc m l) = m)
    by (destruct l as [|[]]; reflexivity).
  destruct (Z.max (Z.log2 m + 1 + e - 53) (-1074) - e) as [|p|p] eqn:Hn;
    cbn [fst snd]; try (rewrite Hr; lia).
  rewrite iter_shr by lia. rewrite Hr.
  destruct (shiftr_pos m (Zpos p)) as [H1 H2]; [exact Hm|lia|]. lia.
Qed.

Lemma round_nearest_even_ge (r : Z) (l : SpecFloat.location) :
  r <= SpecFloat.round_nearest_even r l.
Proof. destruct l as [|[]]; cbn; try destruct (Z.even r); lia. Qed.

(** Rounding a negative value of that magnitude gives a negative finite
    double or minus infinity, never a zero. *)
Lemma binary_round_aux_neg (m e : Z) :
  0 < m -> -1074 < Z.log2 m + 1 + e ->
  (exists m' e', SpecFloat.binary_round_aux FloatOps.prec FloatOps.emax true m e SpecFloat.loc_Exact
                 = S754_finite true m' e')
  \/ SpecFloat.binary_round_aux FloatOps.prec FloatOps.emax true m e SpecFloat.loc_Exact
     = S754_infinity true.
Proof.
  intros Hm He. unfold SpecFloat.binary_round_aux.
  destruct (shr_fexp_pos m e SpecFloat.loc_Exact Hm He) as [H1 H2].
  destruct (SpecFloat.shr_fexp FloatOps.prec FloatOps.emax m e SpecFloat.loc_Exact) as [mrs' e'].
  cbn [fst snd] in H1, H2.
  set (r := SpecFloat.round_nearest_even (SpecFloat.shr_m mrs') (SpecFloat.loc_of_shr_record mrs')).
  assert (Hr : SpecFloat.shr_m mrs' <= r) by apply round_nearest_even_ge.
  assert (Hl : Z.log2 (SpecFloat.shr_m mrs') <= Z.log2 r) by (apply Z.log2_le_mono; lia).
  destruct (shr_fexp_pos r e' SpecFloat.loc_Exact) as [H3 _]; [lia|lia|].
  destruct (SpecFloat.shr_fexp FloatOps.prec FloatOps.emax r e' SpecFloat.loc_Exact) as [mrs'' e''].
  cbn [fst] in H3.
  destruct (SpecFloat.shr_m mrs'') as [|p|p]; try lia.
  destruct (e'' <=? _); [left; eauto|right; reflexivity].
Qed.

Lemma iter_xO (m d : positive) :
  Zpos (Pos.iter xO m d) = Zpos m * 2 ^ Zpos d.
Proof.
  induction d as [|d IH] using Pos.peano_ind.
  - cbn. lia.
  - rewrite Pos.iter_succ, Pos2Z.inj_succ, Z.pow_succ_r by lia.
    change (Zpos (xO (Pos.iter xO m d))) with (2 * Zpos (Pos.iter xO m d)).
    rewrite IH. lia.
Qed.

Lemma shl_align_mag (m : positive) (e e0 : Z) :
  let r := SpecFloat.shl_align m e e0 in
  Z.log2 (Zpos (fst r)) + snd r = Z.log2 (Zpos m) + e.
Proof.
  unfold SpecFloat.shl_align.
  destruct (e0 - e) as [|d|d] eqn:Hd; cbn [fst snd]; try lia.
  rewrite iter_xO, Z.log2_mul_pow2 by lia. lia.
Qed.

Lemma binary_round_neg (m : positive) (e : Z) :
  -1074 < Z.log2 (Zpos m) + 1 + e ->
  let r := SpecFloat.binary_round FloatOps.prec FloatOps.emax true m e in
  (exists m' e', r = S754_finite true m' e') \/ r = S754_infinity true.
Proof.
  intros He. unfold SpecFloat.binary_round.
  pose proof (shl_align_mag m e
    (SpecFloat.fexp FloatOps.prec FloatOps.emax (Zpos (SpecFloat.digits2_pos m) + e))) as Hs.
  destruct (SpecFloat.shl_align m e _) as [mz ez]. cbn [fst snd] in Hs.
  apply binary_round_aux_neg; lia.
Qed.

(** In binary64, [f - 0.66] is negative whenever [f] is: the exact
    difference is at most -0.66, far from the range that rounds to zero. *)
Lemma sub_066_neg (f : float) :
  (f <? 0)%float = true -> (f - 0.66 <? 0)%float = true.
Proof.
  rewrite !FloatAxioms.ltb_spec, FloatAxioms.sub_spec.
  change (Prim2SF 0) with (S754_zero false).
  change (Prim2SF 0.66) with (S754_finite false 5944751508129055 (-53)).
  destruct (Prim2SF f) as [sg|sg| |sg mx ex]; cbn; try discriminate;
    destruct sg; try discriminate; intros _; [reflexivity|].
  set (ez := Z.min ex (-53)).
  pose proof (shl_align_mag 5944751508129055 (-53) ez) as Hb.
  destruct (SpecFloat.shl_align 5944751508129055 (-53) ez) as [b eb] eqn:Hsb.
  cbn [fst snd] in Hb |- *.
  assert (Heb : eb = ez).
  { unfold SpecFloat.shl_align in Hsb. unfold ez in *.
    destruct (Z.min ex (-53) - -53) eqn:Hd; inversion Hsb; lia. }
  destruct (SpecFloat.shl_align mx ex ez) as [a ea]. cbn [fst].
  change (SpecFloat.cond_Zopp true (Zpos a) - Zpos b) with (Zneg (a + b)).
  cbn [SpecFloat.binary_normalize].
  assert (Hab : Z.log2 (Zpos b) <= Z.log2 (Zpos (a + b))) by (apply Z.log2_le_mono; lia).
  change (Z.log2 (Zpos 5944751508129055)) with 52 in Hb.
  destruct (binary_round_neg (a + b) ez) as [[m' [e' ->]]| ->]; [lia|reflexivity|reflexivity].
Qed.

(** ** Scoring *)

Lemma radio_label_nonempty (q : question) (label : string) :
  In label (radio_labels q) -> exists c r, label = String c r.
Proof.
  unfold radio_labels. intro H. apply in_map_iff in H.
  destruct H as [p [<- _]]. eauto.
Qed.

Lemma score_step_classify (acc : py_num) (qa : question * option string) :
  score_step acc qa = py_points acc (classify qa).
Proof.
  destruct qa as [q [[|c r]|]]; unfold score_step, classify; try reflexivity.
  destruct (String.eqb (String c EmptyString) (q_answer q)); reflexivity.
Qed.

Lemma classify_verdict_spec (qa : question * option string) :
  match snd qa with
  | None => true
  | Some label => existsb (String.eqb label) (radio_labels (fst qa))
  end = true ->
  classify qa = verdict_spec qa.
Proof.
  destruct qa as [q [label|]]; simpl; intro H; [|reflexivity].
  apply existsb_exists in H. destruct H as [l [Hin Heq]].
  apply String.eqb_eq in Heq. subst l.
  destruct (radio_label_nonempty q label Hin) as [c [r ->]]. reflexivity.
Qed.

Definition sample_question : question :=
  {| q_question := "Which article abolishes untouchability?"%string;
     q_options := ["14"; "15"; "17"; "21"]%string;
     q_answer := "C"%string |}.

Definition sample_attempt : attempt :=
  [(sample_question, Some "C. 17"); (sample_question, Some "A. 14");
   (sample_question, None)]%string.

(** C1, counterexample: one correct answer then one wrong answer.  Line
    146 computes [2 - 0.66] in binary64, which is 1.3399999999999999, not
    the sum 1.34 of the specification. *)
Lemma final_score_not_exact_sum :
  well_formed_attempt (firstn 2 sample_attempt) = true /\
  final_score (firstn 2 sample_attempt) = PyFloat 1.3399999999999999%float /\
  forall v, py_value (final_score (firstn 2 sample_attempt)) = Some v ->
            ~ (v == score_spec (firstn 2 sample_attempt))%Q.
Proof.
  split; [vm_compute; reflexivity|]. split; [vm_compute; reflexivity|].
  intros v Hv. vm_compute in Hv. injection Hv as <-.
  rewrite <- Qeq_bool_iff. vm_compute. discriminate.
Qed.

(** C1 (as the code computes it): for an attempt whose selections are
    labels offered by the radio buttons, the final score is obtained from
    the int [0] by applying, question after question, [score += 2] when the
    first character of the chosen label is the correct letter,
    [score -= 0.66] (a float subtraction) when an option with another letter
    was chosen, and nothing when no option was chosen. *)
Theorem final_score_python_sum (a : attempt) :
  well_formed_attempt a = true -> final_score a = score_python_spec a.
Proof.
  unfold final_score, score_python_spec, well_formed_attempt.
  generalize (PyInt 0). induction a as [|qa a IH]; intros acc H; [reflexivity|].
  cbn [fold_left forallb] in *. apply andb_true_iff in H. destruct H as [H1 H2].
  rewrite score_step_classify, (classify_verdict_spec qa H1). exact (IH _ H2).
Qed.

Lemma final_score_python_sum_witness :
  well_formed_attempt sample_attempt = true /\
  final_score sample_attempt = score_python_spec sample_attempt.
Proof.
  split; [vm_compute; reflexivity|].
  apply final_score_python_sum. vm_compute. reflexivity.
Defined.

Lemma fold_no_correct_neg (a : attempt) :
  forall acc,
  forallb (fun qa => negb (is_correct qa)) a = true ->
  (exists f, acc = PyFloat f /\ (f <? 0)%float = true) ->
  exists f, fold_left score_step a acc = PyFloat f /\ (f <? 0)%float = true.
Proof.
  induction a as [|qa a IH]; intros acc H Hacc; cbn [fold_left forallb] in *; [exact Hacc|].
  apply andb_true_iff in H. destruct H as [H1 H2]. apply IH; [exact H2|].
  destruct Hacc as [f [-> Hf]]. rewrite score_step_classify.
  unfold is_correct in H1. destruct (classify qa); cbn in H1 |- *.
  - discriminate.
  - exists (f - 0.66)%float. split; [reflexivity|]. apply sub_066_neg. exact Hf.
  - exists f. split; [reflexivity|exact Hf].
Qed.

Lemma fold_wrong_no_correct_neg (a : attempt) :
  existsb is_wrong a = true ->
  forallb (fun qa => negb (is_correct qa)) a = true ->
  exists f, fold_left score_step a (PyInt 0) = PyFloat f /\ (f <? 0)%float = true.
Proof.
  induction a as [|qa a IH]; cbn [existsb forallb fold_left]; [discriminate|].
  intros Hw H. apply andb_true_iff in H. destruct H as [H1 H2].
  rewrite score_step_classify. unfold is_correct, is_wrong in *.
  destruct (classify qa); cbn [negb orb py_points] in H1, Hw |- *.
  - discriminate.
  - apply fold_no_correct_neg; [exact H2|].
    exists (float_of_int 0 - 0.66)%float. split; [reflexivity|].
    vm_compute. reflexivity.
  - exact (IH Hw H2).
Qed.

(** C10: the score is not clamped at zero: when some question is answered
    wrongly and none correctly, the score shown at line 153 is a negative
    float, while the maximum it is shown against is [num_questions * 2]. *)
Theorem score_not_clamped (num_questions : Z) (a : attempt) :
  existsb is_wrong a = true ->
  forallb (fun qa => negb (is_correct qa)) a = true ->
  (exists f, fst (score_line num_questions a) = PyFloat f /\ (f <? 0)%float = true) /\
  snd (score_line num_questions a) = num_questions * 2.
Proof.
  intros Hw Hc. unfold score_line, final_score. cbn [fst snd]. split; [|reflexivity].
  exact (fold_wrong_no_correct_neg a Hw Hc).
Qed.

Definition wrong_attempt : attempt :=
  [(sample_question, None); (sample_question, Some "A. 14");
   (sample_question, Some "B. 15")]%string.

Lemma score_not_clamped_witness :
  existsb is_wrong wrong_attempt = true /\
  forallb (fun qa => negb (is_correct qa)) wrong_attempt = true /\
  (exists f, fst (score_line 10 wrong_attempt) = PyFloat f /\ (f <? 0)%float = true) /\
  snd (score_line 10 wrong_attempt) = 10 * 2.
Proof.
  split; [vm_compute; reflexivity|]. split; [vm_compute; reflexivity|].
  apply score_not_clamped; vm_compute; reflexivity.
Defined.

Lemma countdown_sets_only_on_click (extra_delay : nat -> nat) (end_time : Z)
    (submit_clicked : bool) :
  forall fuel k q k' q',
  countdown extra_delay fuel k end_time submit_clicked q = Some (k', q') ->
  submitted q = false -> submitted q' = true -> submit_clicked = true.
Proof.
  induction fuel as [|fuel IH]; intros k q k' q' H Hq Hq'; simpl in H;
    [discriminate|].
  destruct ((clock q <? end_time) && negb (submitted q)).
  - destruct submit_clicked; [reflexivity|].
    apply (IH _ _ _ _ H); assumption.
  - injection H as <- <-. congruence.
Qed.

(** C6: after the countdown of lines 115-130 (which starts from
    [submitted = False], line 97), [submitted] is [True] only if the Submit
    Quiz button was clicked or the clock has reached [end_time]. *)
Theorem submitted_only_by_click_or_deadline (extra_delay : nat -> nat)
    (fuel : nat) (num_questions start_time : Z) (submit_clicked : bool)
    (q : quiz_state) :
  quiz_timer extra_delay fuel num_questions start_time submit_clicked = Some q ->
  submitted q = true ->
  submit_clicked = true \/ start_time + num_questions * 15 * 1000 <= clock q.
Proof.
  unfold quiz_timer. simpl negb. cbv iota.
  destruct (countdown extra_delay fuel 0 (start_time + num_questions * 15 * 1000)
              submit_clicked {| clock := start_time; submitted := false |})
    as [[k q1]|] eqn:Hc; [|discriminate].
  destruct ((start_time + num_questions * 15 * 1000 <=? clock q1)
            && negb (submitted q1)) eqn:Hd; intros H Hs; injection H as <-.
  - right. apply andb_true_iff in Hd. destruct Hd as [Hd _].
    apply Z.leb_le in Hd. simpl. lia.
  - left. exact (countdown_sets_only_on_click _ _ _ _ _ _ _ _ Hc eq_refl Hs).
Qed.

Lemma submitted_only_by_click_or_deadline_witness :
  quiz_timer (fun _ => 3%nat) 200 10 0 false
    = Some {| clock := 152453; submitted := true |} /\
  submitted {| clock := 152453; submitted := true |} = true /\
  (false = true \/ 0 + 10 * 15 * 1000 <= clock {| clock := 152453; submitted := true |}).
Proof.
  split; [vm_compute; reflexivity|]. split; [reflexivity|].
  apply (submitted_only_by_click_or_deadline (fun _ => 3%nat) 200 10 0 false);
    vm_compute; reflexivity.
Defined.

Lemma countdown_exits (extra_delay : nat -> nat) (end_time : Z)
    (submit_clicked : bool) :
  forall fuel k q,
  submitted q = false ->
  end_time <= clock q + 1000 * Z.of_nat fuel ->
  exists k' q', countdown extra_delay (S fuel) k end_time submit_clicked q
                = Some (k', q') /\
                (submitted q' = true \/ end_time <= clock q').
Proof.
  induction fuel as [|fuel IH]; intros k q Hs Hb.
  - simpl. rewrite Hs. simpl.
    replace (clock q <? end_time) with false by (symmetry; apply Z.ltb_ge; lia).
    simpl. do 2 eexists. split; [reflexivity|]. right. lia.
  - cbn [countdown]. rewrite Hs. cbn [negb]. rewrite andb_true_r.
    destruct (clock q <? end_time) eqn:Hlt.
    + destruct submit_clicked.
      * do 2 eexists. split; [reflexivity|]. left. reflexivity.
      * apply IH; [exact Hs|]. rewrite Nat2Z.inj_succ in Hb.
        unfold sleep; cbn [clock].
        pose proof (Nat2Z.is_nonneg (extra_delay k)). lia.
    + apply Z.ltb_ge in Hlt. do 2 eexists. split; [reflexivity|]. right. exact Hlt.
Qed.

(** C7: the countdown ends: with [end_time = start_time + num_questions * 15]
    seconds, the loop of lines 118-125 runs at most [num_questions * 15]
    times (one second of sleep each), so fuel [num_questions * 15 + 1]
    always suffices; when it stops, [submitted] is [True], set either by the
    click or by the auto-submit of lines 127-130. *)
Theorem countdown_terminates_submitted (extra_delay : nat -> nat)
    (num_questions start_time : Z) (submit_clicked : bool) :
  exists q,
    quiz_timer extra_delay (S (Z.to_nat (num_questions * 15)))
      num_questions start_time submit_clicked = Some q /\
    submitted q = true.
Proof.
  unfold quiz_timer. simpl negb. cbv iota.
  destruct (countdown_exits extra_delay (start_time + num_questions * 15 * 1000)
              submit_clicked (Z.to_nat (num_questions * 15)) 0
              {| clock := start_time; submitted := false |} eq_refl)
    as [k [q [Hc Hq]]].
  { cbn [clock]. lia. }
  rewrite Hc.
  destruct ((start_time + num_questions * 15 * 1000 <=? clock q)
            && negb (submitted q)) eqn:Hd.
  - eexists. split; reflexivity.
  - exists q. split; [reflexivity|].
    destruct Hq as [Hq|Hq]; [exact Hq|].
    destruct (submitted q) eqn:Es; [reflexivity|].
    apply Z.leb_le in Hq. rewrite Hq in Hd. discriminate.
Qed.

(* ------------------------------------------------------------------ *)
(** * Further properties of the code *)

Lemma reset_twice (d : string) (s : session) :
  reset_question_limit d (reset_question_limit d s) = reset_question_limit d s.
Proof.
  unfold reset_question_limit.
  destruct (negb (String.eqb (last_reset s) d)) eqn:E; simpl.
  - rewrite String.eqb_refl. reflexivity.
  - rewrite E. reflexivity.
Qed.

Lemma reset_same_day (d : string) (s : session) :
  last_reset s = d -> reset_question_limit d s = s.
Proof.
  intros <-. unfold reset_question_limit. rewrite String.eqb_refl. reflexivity.
Qed.

(** The counter after a call is the one after the reset, possibly plus the
    requested count; the stored date is the one after the reset. *)
Lemma generate_count_cases json_loads today topic n post s :
  let sr := reset_question_limit today s in
  let s' := fst (generate_questions json_loads today topic n post s) in
  (question_count s' = question_count sr \/
   question_count s' = question_count sr + n) /\
  last_reset s' = last_reset sr.
Proof.
  intros sr s'. subst s'. unfold generate_questions. fold sr.
  destruct (300 <? question_count sr + n); [simpl; auto|].
  case_matches; simpl; auto.
Qed.

Definition sample_day : string := "2026-10-19".



Definition loads_one (txt : string) : option json :=
  if String.eqb txt "[1]" then Some (JArr [JNum 1]) else None.


(** A payload of one element, delivered for a request of 10 questions in
    the list form of the response, is charged 10. *)
Lemma generate_questions_charges_requested_witness :
  generate_questions loads_one sample_day "Polity" 10 (list_response "[1]")
    (init_session sample_day)
  = ({| question_count := 10; last_reset := sample_day; errors := [] |},
     Returned (JArr [JNum 1])) /\
  errors {| question_count := 10; last_reset := sample_day; errors := [] |}
  = errors (reset_question_limit sample_day (init_session sample_day)) /\
  question_count {| question_count := 10; last_reset := sample_day; errors := [] |}
  = question_count (reset_question_limit sample_day (init_session sample_day)) + 10.
Proof.
  split; [vm_compute; reflexivity|]. split; [vm_compute; reflexivity|].
  apply (generate_questions_charges_requested loads_one sample_day "Polity" 10
           (list_response "[1]") (init_session sample_day) _ (JArr [JNum 1]));
    vm_compute; reflexivity.
Defined.

(** Within one day, with non-negative requests, the counter never goes
    down and the stored date stays that day. *)
Theorem run_ops_same_day_monotone json_loads (d : string) (ops : list session_op) :
  forall s, ops_on_day d ops = true -> last_reset s = d ->
  question_count s <= question_count (run_ops json_loads s ops) /\
  last_reset (run_ops json_loads s ops) = d.
Proof.
  induction ops as [|o ops IH]; intros s Hops Hd; simpl; [split; [lia | exact Hd]|].
  unfold ops_on_day in Hops. cbn [forallb] in Hops.
  apply andb_true_iff in Hops. destruct Hops as [Ho Hops].
  destruct o as [t | t topic n post].
  - apply String.eqb_eq in Ho. subst t. simpl.
    rewrite (reset_same_day d s Hd). apply IH; assumption.
  - apply andb_true_iff in Ho. destruct Ho as [Ht Hn].
    apply String.eqb_eq in Ht. subst t. apply Z.leb_le in Hn.
    destruct (generate_count_cases json_loads d topic n post s) as [Hc Hl].
    rewrite (reset_same_day d s Hd) in Hc, Hl.
    specialize (IH (apply_op json_loads s (OpGenerate d topic n post)) Hops).
    simpl in IH |- *. destruct (IH ltac:(congruence)) as [IH1 IH2].
    split; [lia | exact IH2].
Qed.

Lemma run_ops_same_day_monotone_witness :
  ops_on_day sample_day [OpGenerate sample_day "Polity" 10 (text_response "[1]");
                         OpReset sample_day] = true /\
  last_reset (init_session sample_day) = sample_day /\
  question_count (init_session sample_day)
  <= question_count (run_ops loads_one (init_session sample_day)
       [OpGenerate sample_day "Polity" 10 (text_response "[1]"); OpReset sample_day]) /\
  last_reset (run_ops loads_one (init_session sample_day)
       [OpGenerate sample_day "Polity" 10 (text_response "[1]"); OpReset sample_day])
  = sample_day.
Proof.
  split; [vm_compute; reflexivity|]. split; [reflexivity|].
  apply run_ops_same_day_monotone; vm_compute; reflexivity.
Defined.

(** A truthy value returned by [generate_questions] comes from the
    successful path, which charges the requested count. *)
Lemma generate_truthy_charged json_loads today topic n post s s2 v :
  generate_questions json_loads today topic n post s = (s2, Returned v) ->
  truthy v = true ->
  question_count s2 = question_count (reset_question_limit today s) + n.
Proof.
  unfold generate_questions, empty_list.
  set (sr := reset_question_limit today s).
  destruct (300 <? question_count sr + n);
    [intro H; inversion H; subst; discriminate|].
  case_matches; intro H; inversion H; subst; intro Hv;
    try discriminate; reflexivity.
Qed.

(** The quiz starts only when a name and a topic were entered and Start was
    clicked, with a truthy decoded payload, and the counter was then charged
    the requested number of questions. *)
Theorem start_quiz_started_requires json_loads today player_name topic
    num_questions start_clicked post s s' qs :
  start_quiz json_loads today player_name topic num_questions start_clicked post s
  = (s', Started qs) ->
  player_name <> EmptyString /\ topic <> EmptyString /\ start_clicked = true /\
  truthy qs = true /\
  question_count s' = question_count (reset_question_limit today s) + num_questions.
Proof.
  unfold start_quiz.
  destruct (negb (String.eqb player_name EmptyString)) eqn:Hp; [|discriminate].
  destruct (negb (String.eqb topic EmptyString)) eqn:Ht; [|discriminate].
  destruct start_clicked; [|discriminate]. cbn [andb].
  apply negb_true_iff, String.eqb_neq in Hp.
  apply negb_true_iff, String.eqb_neq in Ht.
  destruct (generate_questions json_loads today topic num_questions post
              (reset_question_limit today s)) as [s2 r] eqn:Hg.
  destruct r as [v|e]; [|discriminate].
  destruct (negb (truthy v)) eqn:Hv; [discriminate|].
  intro H. injection H as <- <-. apply negb_false_iff in Hv.
  rewrite (generate_truthy_charged _ _ _ _ _ _ _ _ Hg Hv), reset_twice.
  repeat split; auto.
Qed.

Lemma start_quiz_started_requires_witness :
  start_quiz loads_one sample_day "Asha" "Polity" 10 true (text_response "[1]")
    (init_session sample_day)
  = ({| question_count := 10; last_reset := sample_day; errors := [] |},
     Started (JArr [JNum 1])) /\
  ("Asha"%string <> EmptyString /\ "Polity"%string <> EmptyString /\ true = true /\
   truthy (JArr [JNum 1]) = true /\
   question_count {| question_count := 10; last_reset := sample_day; errors := [] |}
   = question_count (reset_question_limit sample_day (init_session sample_day)) + 10).
Proof.
  split; [vm_compute; reflexivity|].
  apply (start_quiz_started_requires loads_one sample_day "Asha" "Polity" 10 true
           (text_response "[1]") (init_session sample_day)).
  vm_compute. reflexivity.
Defined.

Lemma generate_error_empty json_loads today topic n post s s2 r :
  generate_questions json_loads today topic n post s = (s2, r) ->
  errors s2 <> errors (reset_question_limit today s) -> r = empty_list.
Proof.
  unfold generate_questions.
  set (sr := reset_question_limit today s).
  destruct (300 <? question_count sr + n);
    [intro H; inversion H; subst; reflexivity|].
  case_matches; intro H; inversion H; subst; intro He;
    try reflexivity; contradiction He; reflexivity.
Qed.

(** Every error that [generate_questions] displays ends the attempt with
    the warning of line 91: no question is shown and no timer runs. *)
Theorem start_quiz_error_aborts json_loads today player_name topic
    num_questions start_clicked post s :
  let r := start_quiz json_loads today player_name topic num_questions
             start_clicked post s in
  errors (fst r) <> errors s -> snd r = StartAborted.
Proof.
  intro r. subst r. unfold start_quiz.
  assert (He : errors (reset_question_limit today s) = errors s)
    by (unfold reset_question_limit; destruct (negb _); reflexivity).
  destruct (_ && _ && _); [|simpl; intro H; contradiction H].
  destruct (generate_questions json_loads today topic num_questions post
              (reset_question_limit today s)) as [s2 r] eqn:Hg.
  rewrite <- He, <- (reset_twice today s).
  assert (Hfst : fst (match r with
                      | Returned questions =>
                          if negb (truthy questions) then (s2, StartAborted)
                          else (s2, Started questions)
                      | Raised e => (s2, StartRaised e)
                      end) = s2)
    by (destruct r as [v|e]; [destruct (negb (truthy v))|]; reflexivity).
  rewrite Hfst. intro Hne.
  rewrite (generate_error_empty _ _ _ _ _ _ _ _ Hg Hne). reflexivity.
Qed.

Lemma start_quiz_error_aborts_witness :
  errors (fst (start_quiz loads_one sample_day "Asha" "Polity" 10 true
                 (Response 503 None) (init_session sample_day)))
  <> errors (init_session sample_day) /\
  snd (start_quiz loads_one sample_day "Asha" "Polity" 10 true
         (Response 503 None) (init_session sample_day)) = StartAborted.
Proof.
  split; [vm_compute; discriminate|].
  apply start_quiz_error_aborts. vm_compute. discriminate.
Defined.

(** A provider text that decodes to the empty list is charged to the
    quota and still aborts the attempt: the user pays for no questions.
    This holds for every response of status 200 whose JSON carries the
    text as [generated_text], in the dict form or in the list form. *)
Theorem start_quiz_empty_payload_charged json_loads today player_name topic
    num_questions rj txt s :
  question_count (reset_question_limit today s) + num_questions <= 300 ->
  player_name <> EmptyString -> topic <> EmptyString ->
  truthy rj = true -> extract_generated_text rj = inr (Some (JStr txt)) ->
  txt <> EmptyString -> json_loads txt = Some (JArr []) ->
  start_quiz json_loads today player_name topic num_questions true
    (Response 200 (Some rj)) s
  = ({| question_count := question_count (reset_question_limit today s) + num_questions;
        last_reset := last_reset (reset_question_limit today s);
        errors := errors (reset_question_limit today s) |}, StartAborted).
Proof.
  intros Hq Hp Ht Hr Hx Hs Hl. unfold start_quiz.
  apply String.eqb_neq in Hp, Ht. rewrite Hp, Ht. cbn [negb andb].
  unfold generate_questions. rewrite reset_twice.
  apply Z.ltb_ge in Hq. rewrite Hq.
  cbn -[truthy extract_generated_text reset_question_limit]. rewrite Hr, Hx.
  cbn [negb truthy]. apply String.eqb_neq in Hs. rewrite Hs. cbn [negb].
  rewrite Hl. reflexivity.
Qed.

Definition loads_empty (txt : string) : option json :=
  if String.eqb txt "[]" then Some (JArr []) else None.

Lemma start_quiz_empty_payload_charged_witness :
  start_quiz loads_empty sample_day "Asha" "Polity" 10 true
    (list_response "[]") (init_session sample_day)
  = ({| question_count := 10; last_reset := sample_day; errors := [] |},
     StartAborted).
Proof.
  exact (start_quiz_empty_payload_charged loads_empty sample_day "Asha" "Polity" 10
           (JArr [JObj [("generated_text"%string, JStr "[]")]]) "[]"
           (init_session sample_day)
           ltac:(vm_compute; discriminate) ltac:(discriminate)
           ltac:(discriminate) eq_refl eq_refl ltac:(discriminate) eq_refl).
Defined.

(** A click on Submit takes effect after exactly one sleep of the loop:
    the quiz is submitted one second (plus the sleep's extra delay) after
    it started, without the auto-submit pause. *)
Theorem quiz_timer_click_after_one_sleep (extra_delay : nat -> nat)
    (fuel : nat) (num_questions start_time : Z) :
  0 < num_questions ->
  quiz_timer extra_delay (S fuel) num_questions start_time true
  = Some {| clock := start_time + 1000 + Z.of_nat (extra_delay 0%nat);
            submitted := true |}.
Proof.
  intro Hn. unfold quiz_timer. cbn [negb submitted countdown clock].
  replace (start_time <? start_time + num_questions * 15 * 1000) with true
    by (symmetry; apply Z.ltb_lt; lia).
  cbn. rewrite andb_false_r. reflexivity.
Qed.

Lemma quiz_timer_click_after_one_sleep_witness :
  0 < 10 /\
  quiz_timer (fun _ => 7%nat) 5 10 1000 true
  = Some {| clock := 1000 + 1000 + Z.of_nat 7; submitted := true |}.
Proof.
  split; [lia|]. apply (quiz_timer_click_after_one_sleep (fun _ => 7%nat) 4 10 1000).
  lia.
Defined.

Lemma countdown_exit_cond (extra_delay : nat -> nat) (end_time : Z)
    (submit_clicked : bool) :
  forall fuel k q k' q',
  countdown extra_delay fuel k end_time submit_clicked q = Some (k', q') ->
  end_time <= clock q' \/ submitted q' = true.
Proof.
  induction fuel as [|fuel IH]; intros k q k' q' H; simpl in H; [discriminate|].
  destruct ((clock q <? end_time) && negb (submitted q)) eqn:Ht.
  - destruct submit_clicked.
    + injection H as <- <-. right. reflexivity.
    + exact (IH _ _ _ _ H).
  - injection H as <- <-. apply andb_false_iff in Ht.
    destruct Ht as [Ht|Ht]; [left; apply Z.ltb_ge; exact Ht|].
    right. apply negb_false_iff. exact Ht.
Qed.

(** Without a click the quiz is never submitted before its deadline: when
    the countdown finishes, the clock has reached
    [start_time + num_questions * 15] seconds and the answers are
    submitted. *)
Theorem quiz_timer_no_click_runs_to_deadline (extra_delay : nat -> nat)
    (fuel : nat) (num_questions start_time : Z) (q : quiz_state) :
  quiz_timer extra_delay fuel num_questions start_time false = Some q ->
  start_time + num_questions * 15 * 1000 <= clock q /\ submitted q = true.
Proof.
  unfold quiz_timer. cbn [negb submitted].
  set (e := start_time + num_questions * 15 * 1000).
  destruct (countdown extra_delay fuel 0 e false
              {| clock := start_time; submitted := false |})
    as [[k q1]|] eqn:Hc; [|discriminate].
  assert (Hs : submitted q1 = false).
  { destruct (submitted q1) eqn:E; [|reflexivity].
    discriminate (countdown_sets_only_on_click _ _ _ _ _ _ _ _ Hc eq_refl E). }
  destruct (countdown_exit_cond _ _ _ _ _ _ _ _ Hc) as [Hle|Hsub];
    [|congruence].
  rewrite Hs. apply Z.leb_le in Hle. rewrite Hle. cbn.
  intro H. injection H as <-. cbn. apply Z.leb_le in Hle.
  pose proof (Nat2Z.is_nonneg (extra_delay k)). split; [lia | reflexivity].
Qed.

Lemma quiz_timer_no_click_runs_to_deadline_witness :
  quiz_timer (fun _ => 3%nat) 200 10 0 false
    = Some {| clock := 152453; submitted := true |} /\
  (0 + 10 * 15 * 1000 <= clock {| clock := 152453; submitted := true |} /\
   submitted {| clock := 152453; submitted := true |} = true).
Proof.
  split; [vm_compute; reflexivity|].
  apply (quiz_timer_no_click_runs_to_deadline (fun _ => 3%nat) 200 10 0).
  vm_compute. reflexivity.
Defined.

(** The loop that records the displayed times ends exactly where the loop
    of [quiz_timer] ends. *)
Lemma countdown_shown_agrees (extra_delay : nat -> nat) (end_time : Z)
    (submit_clicked : bool) :
  forall fuel k q,
  countdown extra_delay fuel k end_time submit_clicked q
  = option_map fst (countdown_shown extra_delay fuel k end_time submit_clicked q).
Proof.
  induction fuel as [|fuel IH]; intros k q; [reflexivity|].
  cbn [countdown countdown_shown].
  destruct ((clock q <? end_time) && negb (submitted q)); [|reflexivity].
  destruct submit_clicked; [reflexivity|].
  rewrite IH.
  destruct (countdown_shown extra_delay fuel (S k) end_time false
              (sleep extra_delay k 1 q)) as [[[k' q'] l]|]; reflexivity.
Qed.

Lemma remaining_display_facts (end_time now : Z) :
  0 < end_time - now ->
  let p := remaining_display end_time now in
  0 <= snd p < 60 /\ 0 <= fst p * 60 + snd p /\
  1000 * (fst p * 60 + snd p) <= end_time - now /\
  end_time - now < 1000 * (fst p * 60 + snd p + 1).
Proof.
  intros Hr p. subst p. unfold remaining_display. cbn [fst snd].
  rewrite Z.quot_div_nonneg by lia.
  Z.div_mod_to_equations. lia.
Qed.

Definition shown_secs (p : Z * Z) : Z := fst p * 60 + snd p.

Lemma countdown_shown_bounds (extra_delay : nat -> nat) (end_time : Z)
    (submit_clicked : bool) :
  forall fuel k q k' q' l,
  countdown_shown extra_delay fuel k end_time submit_clicked q = Some (k', q', l) ->
  Forall (fun p => 0 <= snd p < 60 /\ 0 <= shown_secs p /\
                   1000 * shown_secs p <= end_time - clock q) l /\
  Sorted (fun a b => shown_secs b < shown_secs a) l.
Proof.
  unfold shown_secs.
  induction fuel as [|fuel IH]; intros k q k' q' l H; cbn [countdown_shown] in H;
    [discriminate|].
  destruct ((clock q <? end_time) && negb (submitted q)) eqn:Ht.
  - apply andb_true_iff in Ht. destruct Ht as [Ht _]. apply Z.ltb_lt in Ht.
    destruct (remaining_display_facts end_time (clock q) ltac:(lia))
      as [Hm [Hnn [Hlo Hhi]]].
    destruct submit_clicked.
    + injection H as _ _ <-. split.
      * constructor; [lia | constructor].
      * constructor; constructor.
    + destruct (countdown_shown extra_delay fuel (S k) end_time false
                  (sleep extra_delay k 1 q)) as [[[k1 q1] l1]|] eqn:Hr;
        [|discriminate].
      injection H as _ _ <-.
      destruct (IH _ _ _ _ _ Hr) as [Hf Hs].
      assert (Hc : clock (sleep extra_delay k 1 q) >= clock q + 1000)
        by (unfold sleep; cbn [clock]; pose proof (Nat2Z.is_nonneg (extra_delay k)); lia).
      split.
      * constructor; [lia|].
        eapply Forall_impl; [|exact Hf]. cbn beta. intros p Hp. lia.
      * constructor; [exact Hs|].
        destruct l1 as [|b l1]; constructor.
        inversion Hf as [|? ? Hb]; subst. lia.
  - injection H as _ _ <-. split; constructor.
Qed.

(** The time written by the countdown (lines 119-121) is always a valid
    [MM:SS] reading: seconds in [0, 59], the total between 0 and the
    quiz's [num_questions * 15] seconds, and it strictly decreases from one
    display to the next. *)
Theorem countdown_display_valid (extra_delay : nat -> nat) (fuel : nat)
    (num_questions start_time : Z) (submit_clicked : bool) k q l :
  countdown_shown extra_delay fuel 0 (start_time + num_questions * 15 * 1000)
    submit_clicked {| clock := start_time; submitted := false |} = Some (k, q, l) ->
  Forall (fun p => 0 <= snd p < 60 /\
                   0 <= fst p * 60 + snd p <= num_questions * 15) l /\
  Sorted (fun a b => fst b * 60 + snd b < fst a * 60 + snd a) l.
Proof.
  intro H. destruct (countdown_shown_bounds _ _ _ _ _ _ _ _ _ H) as [Hf Hs].
  unfold shown_secs in *. split; [|exact Hs].
  eapply Forall_impl; [|exact Hf]. cbn beta. intros p Hp. cbn [clock] in Hp. lia.
Qed.

Lemma countdown_display_valid_witness :
  (exists k q l,
     countdown_shown (fun _ => 0%nat) 200 0 (0 + 10 * 15 * 1000) false
       {| clock := 0; submitted := false |} = Some (k, q, l) /\
     Forall (fun p => 0 <= snd p < 60 /\ 0 <= fst p * 60 + snd p <= 10 * 15) l /\
     Sorted (fun a b => fst b * 60 + snd b < fst a * 60 + snd a) l).
Proof.
  destruct (countdown_shown (fun _ => 0%nat) 200 0 (0 + 10 * 15 * 1000) false
              {| clock := 0; submitted := false |}) as [[[k q] l]|] eqn:E;
    [|vm_compute in E; discriminate].
  exists k, q, l. split; [reflexivity|].
  exact (countdown_display_valid (fun _ => 0%nat) 200 10 0 false k q l E).
Defined.

Lemma fold_no_wrong (a : attempt) :
  forall z,
  forallb (fun qa => negb (is_wrong qa)) a = true ->
  fold_left score_step a (PyInt z) = PyInt (z + 2 * Z.of_nat (length (filter is_correct a))).
Proof.
  induction a as [|qa a IH]; intros z H; cbn [fold_left forallb filter length] in *.
  - f_equal. lia.
  - apply andb_true_iff in H. destruct H as [H1 H2].
    rewrite score_step_classify. unfold is_wrong, is_correct in *.
    destruct (classify qa); cbn [negb py_points py_add_int length] in H1 |- *.
    + rewrite IH by exact H2. f_equal. lia.
    + discriminate.
    + rewrite IH by exact H2. reflexivity.
Qed.

(** Without a wrong answer the score never becomes a float: it is the int
    2 times the number of correct answers, with no rounding. *)
Theorem final_score_no_wrong_exact (a : attempt) :
  forallb (fun qa => negb (is_wrong qa)) a = true ->
  final_score a = PyInt (2 * Z.of_nat (length (filter is_correct a))).
Proof.
  intro H. unfold final_score. rewrite (fold_no_wrong a 0 H). reflexivity.
Qed.

Lemma final_score_no_wrong_exact_witness :
  forallb (fun qa => negb (is_wrong qa)) [(sample_question, Some "C. 17"%string); (sample_question, None)] = true /\
  final_score [(sample_question, Some "C. 17"%string); (sample_question, None)] = PyInt 2.
Proof.
  split; [vm_compute; reflexivity|].
  apply (final_score_no_wrong_exact [(sample_question, Some "C. 17"%string); (sample_question, None)]).
  vm_compute. reflexivity.
Defined.

Lemma in_radio_labels (q : question) (label : string) :
  In label (radio_labels q) ->
  exists i o, (i < length (q_options q))%nat /\
              label = String (ascii_of_nat (65 + i)) (". " ++ o).
Proof.
  unfold radio_labels. intro H. apply in_map_iff in H.
  destruct H as [[i o] [<- Hin]]. exists i, o. split; [|reflexivity].
  apply in_combine_l, in_seq in Hin. lia.
Qed.

(** A selection counts as correct only when the answer key is the single
    letter of an offered option ("A" for the first, "B" for the second,
    ...); an answer key such as "a", "A)" or the option text is never
    matched. *)
Theorem correct_only_for_offered_letter (q : question) (label : string) :
  In label (radio_labels q) -> classify (q, Some label) = Correct ->
  exists i, (i < length (q_options q))%nat /\
            q_answer q = String (ascii_of_nat (65 + i)) EmptyString.
Proof.
  intros Hin Hc. destruct (in_radio_labels q label Hin) as [i [o [Hi ->]]].
  exists i. split; [exact Hi|]. unfold classify in Hc.
  destruct (String.eqb (String (ascii_of_nat (65 + i)) EmptyString) (q_answer q)) eqn:E;
    [|discriminate].
  apply String.eqb_eq in E. symmetry. exact E.
Qed.

Lemma correct_only_for_offered_letter_witness :
  In "C. 17"%string (radio_labels sample_question) /\
  classify (sample_question, Some "C. 17"%string) = Correct /\
  exists i, (i < length (q_options sample_question))%nat /\
            q_answer sample_question = String (ascii_of_nat (65 + i)) EmptyString.
Proof.
  split; [vm_compute; auto 6|]. split; [vm_compute; reflexivity|].
  apply (correct_only_for_offered_letter sample_question "C. 17");
    [vm_compute; auto 6 | vm_compute; reflexivity].
Defined.
